(** * The HAL camera controller ([storm_control/hal4000/camera/camera.py])

  A shallow embedding of the [Camera] module of HAL: the handler
  [processMessage], the helper methods it hands to worker tasks and
  [updateParameters].  The handler mutates three things: the controller
  itself ([self.film_length]), the message it is given (responses are
  appended to it) and, through the driver object [self.camera_control],
  the camera and the [Parameters] objects the camera holds.  All three are
  threaded through one state, [World], by a small state-and-exception
  monad.

  [Parameters] objects are shared by reference in Python: what
  [getParameters()] returns is the driver's live object, not a value.  The
  embedding therefore keeps the objects in a store ([Heap]) and passes
  references ([pref]) around. *)

From Stdlib Require Import ZArith.
From stdpp Require Import base option gmap sets list strings.

Open Scope string_scope.
Open Scope list_scope.

(** ** Parameters objects and the store *)

Module params.

(** Modelled from the spec: the [Parameters] class (the spec's ParameterSet)
  is not part of this file.  The content of a [Parameters] object is a
  hierarchical configuration: a tree of named sub-trees. *)
Inductive PTree : Type :=
| PLeaf (v : Z)
| PNode (kids : PKids)
with PKids : Type :=
| KNil
| KCons (k : string) (t : PTree) (rest : PKids).

Fixpoint assoc (k : string) (kids : PKids) : option PTree :=
  match kids with
  | KNil => None
  | KCons k' t rest => if String.eqb k k' then Some t else assoc k rest
  end.

Fixpoint subtree (path : list string) (t : PTree) : option PTree :=
  match path with
  | [] => Some t
  | k :: rest =>
      match t with
      | PLeaf _ => None
      | PNode kids =>
          match assoc k kids with
          | Some t' => subtree rest t'
          | None => None
          end
      end
  end.

(** A Python reference to a [Parameters] object: the top-level object it
    lives in and the path of names down to it. *)
Record pref : Type := PRef { p_obj : positive; p_path : list string }.

Abbreviation Heap := (gmap positive PTree).

(** What a reference denotes in a store. *)
Definition content (h : Heap) (r : pref) : option PTree :=
  match h !! p_obj r with
  | Some t => subtree (p_path r) t
  | None => None
  end.

(** Address of the next object the Python runtime creates. *)
Definition alloc (h : Heap) : positive := fresh (dom h).

End params.
Export params.

(** ** Messages *)

(** Modelled from the spec: [cameraFunctionality.CameraFunctionality], a
  capability handle of which the controller uses the identity and the
  time base ([getTimeBase()]). *)
Record CameraFunctionality : Type :=
{ camera_name : string; getTimeBase : string }.

(** Modelled from the spec: the film settings payload of "start film",
  exposing [isFixedLength()] and [getFilmLength()]. *)
Record FilmSettings : Type :=
{ isFixedLength : bool; getFilmLength : Z }.

(** The Python values found in message and response dictionaries. *)
Inductive PyVal : Type :=
| VNone
| VStr (s : string)
| VInt (n : Z)
| VFunctionality (f : CameraFunctionality)
| VParameters (p : pref)
| VFilmSettings (fs : FilmSettings).

(** [halMessage.HalMessageResponse(source, data)]. *)
Record HalMessageResponse : Type :=
{ r_source : string; r_data : gmap string PyVal }.

(** [halMessage.HalMessage(source, m_type, data)].  The responses of a
  message under processing are kept in the [World]. *)
Record HalMessage : Type :=
{ m_source : string; m_type : string; m_data : gmap string PyVal }.

(** [message.isType(t)]. *)
Definition isType (message : HalMessage) (t : string) : bool :=
String.eqb (m_type message) t.

(** Python's [v == s] for a string [s]. *)
Definition py_eq_str (v : PyVal) (s : string) : bool :=
match v with
| VStr s' => String.eqb s' s
| _ => false
end.

(** ** The camera driver ([self.camera_control]) *)

Module cameraControl.

(** The methods of the driver the controller calls, with their
    arguments. *)
Inductive Call : Type :=
| GetParameters
| GetCameraFunctionality
| NewParameters (p : pref)
| SetFilmLength (film_length : option Z)
| StartCamera
| StopCamera
| StopFilm
| ToggleShutter.

(** Modelled from the spec: the driver class this controller loads by
    name is not part of this file; its interface is the one the controller
    uses.  The two getters read the driver ([getParameters()] returns the
    reference to the live [Parameters] object); every other method may
    change the driver and the objects in the store, and may fail with a
    DeviceError.  [fails c d h] tells whether call [c] made in state [d], [h]
    ends by raising; the function of the method gives the state the call
    leaves the driver and the store in, whether it returns or raises. *)
Class Driver (D : Type) : Type :=
  { getParameters : D -> pref;
    getCameraFunctionality : D -> CameraFunctionality;
    newParameters : pref -> D -> Heap -> D * Heap;
    setFilmLength : option Z -> D -> Heap -> D * Heap;
    startCamera : D -> Heap -> D * Heap;
    stopCamera : D -> Heap -> D * Heap;
    stopFilm : D -> Heap -> D * Heap;
    toggleShutter : D -> Heap -> D * Heap;
    fails : Call -> D -> Heap -> bool }.

(** The effect of one call on the driver and the store. *)
Definition perform {D} `{Driver D} (c : Call) (d : D) (h : Heap) : D * Heap :=
  match c with
  | GetParameters => (d, h)
  | GetCameraFunctionality => (d, h)
  | NewParameters p => newParameters p d h
  | SetFilmLength fl => setFilmLength fl d h
  | StartCamera => startCamera d h
  | StopCamera => stopCamera d h
  | StopFilm => stopFilm d h
  | ToggleShutter => toggleShutter d h
  end.

(** Whether a call ends by raising a DeviceError.  The two getters only
    read the driver and return. *)
Definition raises {D} `{Driver D} (c : Call) (d : D) (h : Heap) : bool :=
  match c with
  | GetParameters => false
  | GetCameraFunctionality => false
  | _ => fails c d h
  end.

(** The top-level objects a call receives references to. *)
Definition args (c : Call) : gset positive :=
  match c with
  | NewParameters p => {[ p_obj p ]}
  | _ => ∅
  end.

End cameraControl.

(** ** The controller and the world it acts on *)

(** What the device saw, in order: driver calls, and the start and
  completion of worker tasks. *)
Inductive Event : Type :=
| Called (c : cameraControl.Call)
| WorkerStart
| WorkerDone.

Inductive Exn : Type :=
| KeyError (k : string)
| AttributeError
| ParametersException (name : string)
| DeviceError.

Inductive Res (A : Type) : Type :=
| Ok (a : A)
| Raise (e : Exn).
Arguments Ok {A} a.
Arguments Raise {A} e.

Section Camera.

Context {D : Type} `{cameraControl.Driver D}.

(** The attributes of a [Camera] object. *)
Record Camera : Type :=
  { module_name : string;
    film_length : option Z;
    camera_control : D }.

Record World : Type :=
  { self : Camera;
    heap : Heap;
    (** responses of the message being processed, oldest first *)
    responses : list HalMessageResponse;
    (** messages sent with [self.newMessage.emit] *)
    emitted : list HalMessage;
    log : list Event }.

Definition set_film_length (v : option Z) (w : World) : World :=
  {| self := {| module_name := module_name (self w);
                film_length := v;
                camera_control := camera_control (self w) |};
     heap := heap w; responses := responses w;
     emitted := emitted w; log := log w |}.

Definition set_driver (d : D) (h : Heap) (w : World) : World :=
  {| self := {| module_name := module_name (self w);
                film_length := film_length (self w);
                camera_control := d |};
     heap := h; responses := responses w;
     emitted := emitted w; log := log w |}.

Definition set_heap (h : Heap) (w : World) : World :=
  {| self := self w; heap := h; responses := responses w;
     emitted := emitted w; log := log w |}.

Definition set_responses (rs : list HalMessageResponse) (w : World) : World :=
  {| self := self w; heap := heap w; responses := rs;
     emitted := emitted w; log := log w |}.

Definition set_emitted (ms : list HalMessage) (w : World) : World :=
  {| self := self w; heap := heap w; responses := responses w;
     emitted := ms; log := log w |}.

Definition set_log (l : list Event) (w : World) : World :=
  {| self := self w; heap := heap w; responses := responses w;
     emitted := emitted w; log := l |}.

(** *** The monad: state, and exceptions that keep the state *)

Definition M (A : Type) : Type := World -> Res A * World.

#[global] Instance M_ret : MRet M := fun A (a : A) (w : World) => (Ok a, w).

#[global] Instance M_bind : MBind M :=
  fun A B (k : A -> M B) (m : M A) (w : World) =>
    match m w with
    | (Ok a, w') => k a w'
    | (Raise e, w') => (Raise e, w')
    end.

Definition raise {A} (e : Exn) : M A := fun w => (Raise e, w).

Definition gets {A} (f : World -> A) : M A := fun w => (Ok (f w), w).

Definition modify (f : World -> World) : M unit := fun w => (Ok tt, f w).

(** *** Primitive effects *)

(** [self.camera_control.<method>(...)]: the call is recorded and takes
  effect on the driver and on the store; it returns, or raises the driver's
  DeviceError, which the controller does not catch. *)
Definition call_driver (c : cameraControl.Call) : M unit :=
  fun w =>
    let r := cameraControl.perform c (camera_control (self w)) (heap w) in
    let w' := set_log (log w ++ [Called c]) (set_driver (fst r) (snd r) w) in
    if cameraControl.raises c (camera_control (self w)) (heap w)
    then (Raise DeviceError, w')
    else (Ok tt, w').

(** [self.camera_control.getParameters()]. *)
Definition camera_control_getParameters : M pref :=
  call_driver cameraControl.GetParameters;;
  gets (fun w => cameraControl.getParameters (camera_control (self w))).

(** [self.camera_control.getCameraFunctionality()]. *)
Definition camera_control_getCameraFunctionality : M CameraFunctionality :=
  call_driver cameraControl.GetCameraFunctionality;;
  gets (fun w => cameraControl.getCameraFunctionality (camera_control (self w))).

(** [message.addResponse(r)]. *)
Definition addResponse (r : HalMessageResponse) : M unit :=
  modify (fun w => set_responses (responses w ++ [r]) w).

(** [self.newMessage.emit(m)]. *)
Definition newMessage_emit (m : HalMessage) : M unit :=
  modify (fun w => set_emitted (emitted w ++ [m]) w).

(** [message.getData()[key]]. *)
Definition getData (message : HalMessage) (key : string) : M PyVal :=
  match m_data message !! key with
  | Some v => mret v
  | None => raise (KeyError key)
  end.

(** Method calls on payload values; a value of another class has no such
  method. *)
Definition py_getTimeBase (v : PyVal) : M string :=
  match v with
  | VFunctionality f => mret (getTimeBase f)
  | _ => raise AttributeError
  end.

Definition py_isFixedLength (v : PyVal) : M bool :=
  match v with
  | VFilmSettings fs => mret (isFixedLength fs)
  | _ => raise AttributeError
  end.

Definition py_getFilmLength (v : PyVal) : M Z :=
  match v with
  | VFilmSettings fs => mret (getFilmLength fs)
  | _ => raise AttributeError
  end.

(** Modelled from the spec: [Parameters.copy()], a deep, independent clone.
  A new object with the same content is created; the result refers to it.
  (A reference that does not resolve has no counterpart in Python; the
  embedding makes the call raise.) *)
Definition Parameters_copy (r : pref) : M pref :=
  fun w =>
    match content (heap w) r with
    | Some t =>
        let l := alloc (heap w) in
        (Ok (PRef l []), set_heap (<[l := t]> (heap w)) w)
    | None => (Raise AttributeError, w)
    end.

(** Modelled from the spec: [Parameters.get(name)], the sub-tree of that
  name; the name must exist in the tree or the call fails. *)
Definition Parameters_get (r : pref) (name : string) : M pref :=
  fun w =>
    let r' := PRef (p_obj r) (p_path r ++ [name]) in
    match content (heap w) r' with
    | Some _ => (Ok r', w)
    | None => (Raise (ParametersException name), w)
    end.

Definition py_get (v : PyVal) (name : string) : M pref :=
  match v with
  | VParameters r => Parameters_get r name
  | _ => raise AttributeError
  end.

(** Modelled from the spec: [halModule.runWorkerTask(module, message, task)],
  the scoped task runner.  The task is a zero-argument unit of work; the
  runner continues only after the work completes, so that what the handler
  does next is ordered after the effects of the task.  A failure of the work
  is the failed outcome of the message: the exception leaves the runner, and
  the task is not recorded as done. *)
Definition runWorkerTask (message : HalMessage) (task : M unit) : M unit :=
  modify (fun w => set_log (log w ++ [WorkerStart]) w);;
  task;;
  modify (fun w => set_log (log w ++ [WorkerDone]) w).

(** *** The methods of [Camera] *)

Definition setFilmLength (film_length : option Z) : M unit :=
  call_driver (cameraControl.SetFilmLength film_length).

Definition startCamera : M unit := call_driver cameraControl.StartCamera.

Definition stopCamera : M unit := call_driver cameraControl.StopCamera.

Definition toggleShutter : M unit := call_driver cameraControl.ToggleShutter.

Definition updateParameters (message : HalMessage) : M unit :=
  me ← gets (fun w => module_name (self w));
  live ← camera_control_getParameters;
  old ← Parameters_copy live;
  addResponse {| r_source := me;
                 r_data := {[ "old parameters" := VParameters old ]} |};;
  P ← getData message "parameters";
  p ← py_get P me;
  call_driver (cameraControl.NewParameters p);;
  new ← camera_control_getParameters;
  addResponse {| r_source := me;
                 r_data := {[ "new parameters" := VParameters new ]} |}.

Definition processMessage (message : HalMessage) : M unit :=
  me ← gets (fun w => module_name (self w));
  if isType message "configure1" then
    p ← camera_control_getParameters;
    newMessage_emit {| m_source := me;
                       m_type := "initial parameters";
                       m_data := {[ "parameters" := VParameters p ]} |}
  else if isType message "film timing" then
    f ← getData message "functionality";
    tb ← py_getTimeBase f;
    if String.eqb tb me then
      fl ← gets (fun w => film_length (self w));
      match fl with
      | Some _ =>
          runWorkerTask message
            (fl' ← gets (fun w => film_length (self w)); setFilmLength fl')
      | None => mret tt
      end
    else mret tt
  else if isType message "get camera functionality" then
    c ← getData message "camera";
    if py_eq_str c me then
      f ← camera_control_getCameraFunctionality;
      addResponse {| r_source := me;
                     r_data := {[ "functionality" := VFunctionality f ]} |}
    else mret tt
  else if isType message "new parameters" then
    runWorkerTask message (updateParameters message)
  else if isType message "shutter clicked" then
    c ← getData message "camera";
    if py_eq_str c me then runWorkerTask message toggleShutter else mret tt
  else if isType message "start camera" then
    c ← getData message "camera";
    if py_eq_str c me then runWorkerTask message startCamera else mret tt
  else if isType message "start film" then
    film_settings ← getData message "film settings";
    fixed ← py_isFixedLength film_settings;
    if (fixed : bool) then
      n ← py_getFilmLength film_settings;
      modify (set_film_length (Some n))
    else mret tt
  else if isType message "stop camera" then
    c ← getData message "camera";
    if py_eq_str c me then runWorkerTask message stopCamera else mret tt
  else if isType message "stop film" then
    modify (set_film_length None);;
    call_driver cameraControl.StopFilm;;
    p ← camera_control_getParameters;
    addResponse {| r_source := me;
                   r_data := {[ "parameters" := VParameters p ]} |}
  else mret tt.

(** *** A controller on the bus *)

(** [Camera.__init__]: no film length is pending.  The driver object is
  built by the class named in the configuration and is given here. *)
Definition init (name : string) (d : D) (h : Heap) : World :=
  {| self := {| module_name := name; film_length := None; camera_control := d |};
     heap := h; responses := []; emitted := []; log := [] |}.

(** Modelled from the spec: delivery of one message by the bus.  Each
  message is an object of its own (here it arrives without responses); a
  handler that raises yields a failed outcome for that message and the
  controller carries on from the state it was left in. *)
Definition deliver (message : HalMessage) (w : World) : World :=
  snd (processMessage message (set_responses [] w)).

(** Messages are delivered one at a time, in bus order. *)
Definition run (messages : list HalMessage) (w : World) : World :=
  fold_left (fun (w' : World) (m : HalMessage) => deliver m w') messages w.

End Camera.

Arguments Camera D : clear implicits.
Arguments World D : clear implicits.
Arguments M D A : clear implicits.

(** ** Notions used to state the properties *)

(** The message types [processMessage] has a branch for. *)
Definition handled_types : list string :=
  [ "configure1"; "film timing"; "get camera functionality"; "new parameters";
    "shutter clicked"; "start camera"; "start film"; "stop camera"; "stop film" ].

(** The message types that name the camera they are meant for. *)
Definition addressed_types : list string :=
  [ "get camera functionality"; "shutter clicked"; "start camera"; "stop camera" ].

(** The length a message declares: that of a "start film" message whose
  film settings say the film has a fixed length. *)
Definition declared_length (m : HalMessage) : option Z :=
  if isType m "start film" then
    match m_data m !! "film settings" with
    | Some (VFilmSettings fs) =>
        if isFixedLength fs then Some (getFilmLength fs) else None
    | _ => None
    end
  else None.

Definition is_stop_film (m : HalMessage) : Prop := isType m "stop film" = true.

Module frame.
Import cameraControl.

(** Which objects a driver may touch.  A driver holds references to some
  objects ([owned], among them its live parameters); a call can change only
  objects the driver holds or is handed as arguments, and what it holds
  afterwards it held before, was handed, or created itself. *)
Class Frame (D : Type) `{Driver D} : Type :=
  { owned : D -> gset positive;
    getParameters_owned :
      forall d, p_obj (getParameters d) ∈ owned d;
    perform_frame :
      forall c d h l,
        l ∈ dom h -> l ∉ owned d -> l ∉ args c ->
        snd (perform c d h) !! l = h !! l;
    perform_owned :
      forall c d h l,
        l ∈ owned (fst (perform c d h)) ->
        l ∈ owned d \/ l ∈ args c \/ l ∉ dom h }.

(** A later change of the driver's live parameters: any call of the driver,
  or a write into the live object by whoever holds a reference to it. *)
Inductive Mutation : Type :=
| ByDriver (c : Call)
| InPlace (t : PTree).

Definition mutate {D} `{Driver D} (mu : Mutation) (dh : D * Heap) : D * Heap :=
  match mu with
  | ByDriver c => perform c (fst dh) (snd dh)
  | InPlace t => (fst dh, <[p_obj (getParameters (fst dh)) := t]> (snd dh))
  end.

Definition mutations {D} `{Driver D} (mus : list Mutation) (dh : D * Heap)
  : D * Heap :=
  fold_left (fun (dh' : D * Heap) (mu : Mutation) => mutate mu dh') mus dh.

(** The mutation hands the driver a reference into object [l]. *)
Definition hands_over (l : positive) (mu : Mutation) : Prop :=
  match mu with
  | ByDriver c => l ∈ args c
  | InPlace _ => False
  end.

(** Object [l] holds [t] and the driver has no reference to it. *)
Definition isolated {D} `{Frame D} (l : positive) (t : PTree) (dh : D * Heap) : Prop :=
  snd dh !! l = Some t /\ l ∉ owned (fst dh).

End frame.

(** ** An emulated camera

    A small driver with one live [Parameters] object, used to run the
    controller on concrete messages. *)

Module emulated.

Record EmulatedCamera : Type :=
  { ec_parameters : positive;
    ec_film_length : option Z;
    ec_running : bool;
    ec_shutter : bool;
    ec_filming : bool }.

Definition with_film_length (fl : option Z) (d : EmulatedCamera) : EmulatedCamera :=
  {| ec_parameters := ec_parameters d; ec_film_length := fl;
     ec_running := ec_running d; ec_shutter := ec_shutter d;
     ec_filming := ec_filming d |}.

Definition with_running (b : bool) (d : EmulatedCamera) : EmulatedCamera :=
  {| ec_parameters := ec_parameters d; ec_film_length := ec_film_length d;
     ec_running := b; ec_shutter := ec_shutter d;
     ec_filming := ec_filming d |}.

Definition with_shutter (b : bool) (d : EmulatedCamera) : EmulatedCamera :=
  {| ec_parameters := ec_parameters d; ec_film_length := ec_film_length d;
     ec_running := ec_running d; ec_shutter := b;
     ec_filming := ec_filming d |}.

Definition with_filming (b : bool) (d : EmulatedCamera) : EmulatedCamera :=
  {| ec_parameters := ec_parameters d; ec_film_length := ec_film_length d;
     ec_running := ec_running d; ec_shutter := ec_shutter d;
     ec_filming := b |}.

(** New parameters are written into the live object, in place. *)
Definition ec_newParameters (p : pref) (d : EmulatedCamera) (h : Heap)
  : EmulatedCamera * Heap :=
  match content h p with
  | Some t => (d, <[ec_parameters d := t]> h)
  | None => (d, h)
  end.

#[export] Instance emulated_driver : cameraControl.Driver EmulatedCamera :=
  {| cameraControl.getParameters d := PRef (ec_parameters d) [];
     cameraControl.getCameraFunctionality d :=
       {| camera_name := "camera1"; getTimeBase := "camera1" |};
     cameraControl.newParameters := ec_newParameters;
     cameraControl.setFilmLength fl d h := (with_film_length fl d, h);
     cameraControl.startCamera d h := (with_running true d, h);
     cameraControl.stopCamera d h := (with_running false d, h);
     cameraControl.stopFilm d h := (with_filming false d, h);
     cameraControl.toggleShutter d h := (with_shutter (negb (ec_shutter d)) d, h);
     cameraControl.fails _ _ _ := false |}.

(** The same camera with a fault: [stopFilm] and [newParameters] raise a
    DeviceError and leave the camera and the store as they were. *)
Record FaultyCamera : Type := { fc_camera : EmulatedCamera }.

Definition fc_lift (f : EmulatedCamera -> Heap -> EmulatedCamera * Heap)
    (d : FaultyCamera) (h : Heap) : FaultyCamera * Heap :=
  ({| fc_camera := fst (f (fc_camera d) h) |}, snd (f (fc_camera d) h)).

#[export] Instance faulty_driver : cameraControl.Driver FaultyCamera :=
  {| cameraControl.getParameters d := cameraControl.getParameters (fc_camera d);
     cameraControl.getCameraFunctionality d :=
       cameraControl.getCameraFunctionality (fc_camera d);
     cameraControl.newParameters p d h := (d, h);
     cameraControl.setFilmLength fl := fc_lift (cameraControl.setFilmLength fl);
     cameraControl.startCamera := fc_lift cameraControl.startCamera;
     cameraControl.stopCamera := fc_lift cameraControl.stopCamera;
     cameraControl.stopFilm d h := (d, h);
     cameraControl.toggleShutter := fc_lift cameraControl.toggleShutter;
     cameraControl.fails c _ _ :=
       match c with
       | cameraControl.StopFilm => true
       | cameraControl.NewParameters _ => true
       | _ => false
       end |}.

Definition camera0 : EmulatedCamera :=
  {| ec_parameters := 1%positive; ec_film_length := None;
     ec_running := false; ec_shutter := false; ec_filming := false |}.

Definition exposure (v : Z) : PTree :=
  PNode (KCons "exposure_time" (PLeaf v) KNil).

(** Object 1 is the camera's live parameters; object 2 is a full parameter
    set as the settings module sends it, with a sub-tree for "camera1". *)
Definition heap0 : Heap :=
  <[2%positive := PNode (KCons "camera1" (exposure 50) (KCons "film" (PLeaf 0) KNil))]>
    (<[1%positive := exposure 20]> ∅).

Definition world0 : World EmulatedCamera := init "camera1" camera0 heap0.

Definition faulty_world0 : World FaultyCamera :=
  init "camera1" {| fc_camera := camera0 |} heap0.

Definition message (t : string) (data : gmap string PyVal) : HalMessage :=
  {| m_source := "film"; m_type := t; m_data := data |}.

Definition start_film (fixed : bool) (n : Z) : HalMessage :=
  message "start film"
    {[ "film settings" := VFilmSettings {| isFixedLength := fixed; getFilmLength := n |} ]}.

Definition stop_film : HalMessage := message "stop film" ∅.

Definition film_timing (time_base : string) : HalMessage :=
  message "film timing"
    {[ "functionality" := VFunctionality {| camera_name := "camera1"; getTimeBase := time_base |} ]}.

Definition to_camera (t name : string) : HalMessage :=
  message t {[ "camera" := VStr name ]}.

Definition new_parameters (P : positive) : HalMessage :=
  message "new parameters" {[ "parameters" := VParameters (PRef P []) ]}.

End emulated.

(** ** Further notions: commands, payloads, validators *)

(** The driver method each camera command runs in its worker task. *)
Definition command_call (t : string) : option cameraControl.Call :=
  if String.eqb t "shutter clicked" then Some cameraControl.ToggleShutter
  else if String.eqb t "start camera" then Some cameraControl.StartCamera
  else if String.eqb t "stop camera" then Some cameraControl.StopCamera
  else None.

(** The payload entry the branch for a message type reads first, for the
    types whose branch starts by reading the payload. *)
Definition first_key (t : string) : option string :=
  if String.eqb t "film timing" then Some "functionality"
  else if String.eqb t "get camera functionality" then Some "camera"
  else if String.eqb t "shutter clicked" then Some "camera"
  else if String.eqb t "start camera" then Some "camera"
  else if String.eqb t "start film" then Some "film settings"
  else if String.eqb t "stop camera" then Some "camera"
  else None.


(** A message carries a reference into object [l] as its "parameters". *)
Definition refers_to (l : positive) (m : HalMessage) : Prop :=
  exists P, m_data m !! "parameters" = Some (VParameters P) /\ p_obj P = l.

(** Only "start film" and "stop film" are film messages. *)
Definition is_film_message (m : HalMessage) : bool :=
  isType m "start film" || isType m "stop film".

(** What a worker task that makes one driver call adds to the log: the
    task starts, the call is made, and the task is done unless the call
    raised. *)
Definition worker_events (c : cameraControl.Call) (raised : bool) : list Event :=
  [WorkerStart; Called c] ++ (if raised then [] else [WorkerDone]).

(** Reading the log: the driver calls made outside any worker task, that
    is, on the bus's own dispatch path. *)
Fixpoint direct_calls (in_task : bool) (events : list Event)
  : list cameraControl.Call :=
  match events with
  | [] => []
  | WorkerStart :: rest => direct_calls true rest
  | WorkerDone :: rest => direct_calls false rest
  | Called c :: rest =>
      if in_task then direct_calls in_task rest
      else c :: direct_calls in_task rest
  end.

(** The number of worker tasks started. *)
Fixpoint tasks_started (events : list Event) : nat :=
  match events with
  | [] => 0
  | WorkerStart :: rest => S (tasks_started rest)
  | _ :: rest => tasks_started rest
  end.

(** The two getters and [stopFilm]. *)
Definition getter_or_stopFilm (c : cameraControl.Call) : bool :=
  match c with
  | cameraControl.GetParameters
  | cameraControl.GetCameraFunctionality
  | cameraControl.StopFilm => true
  | _ => false
  end.

Section Payloads.

Context {D : Type} `{cameraControl.Driver D}.

(** The payload has what the branch for the message's type uses: the entry
    is there and is an object of the class whose methods the branch calls;
    for "new parameters", the parameter set has a sub-tree named after this
    controller (and the driver's own parameters reference denotes an
    object). *)
Definition well_formed (m : HalMessage) (w : World D) : bool :=
  if isType m "film timing" then
    match m_data m !! "functionality" with
    | Some (VFunctionality _) => true
    | _ => false
    end
  else if isType m "get camera functionality" || isType m "shutter clicked"
          || isType m "start camera" || isType m "stop camera" then
    match m_data m !! "camera" with
    | Some _ => true
    | None => false
    end
  else if isType m "new parameters" then
    match m_data m !! "parameters" with
    | Some (VParameters P) =>
        match content (heap w)
                (PRef (p_obj P) (p_path P ++ [module_name (self w)])),
              content (heap w)
                (cameraControl.getParameters (camera_control (self w))) with
        | Some _, Some _ => true
        | _, _ => false
        end
    | _ => false
    end
  else if isType m "start film" then
    match m_data m !! "film settings" with
    | Some (VFilmSettings _) => true
    | _ => false
    end
  else true.

End Payloads.

Module validator.







End validator.

(** ** Running the controller: the scenarios of the specification *)

Section Scenarios.
Import emulated.

(** Scenario A: a fixed-length film of 500 frames, timed by this camera. *)
Example scenario_A_start :
  film_length (self (run [start_film true 500] world0)) = Some 500%Z.
Proof. vm_compute. reflexivity. Qed.

Example scenario_A_timing :
  log (deliver (film_timing "camera1") (run [start_film true 500] world0))
  = [WorkerStart; Called (cameraControl.SetFilmLength (Some 500%Z)); WorkerDone].
Proof. vm_compute. reflexivity. Qed.

Example scenario_A_stop :
  let w := run [start_film true 500; film_timing "camera1"; stop_film] world0 in
  film_length (self w) = None
  /\ responses w = [ {| r_source := "camera1";
                        r_data := {[ "parameters" := VParameters (PRef 1 []) ]} |} ].
Proof. vm_compute. split; reflexivity. Qed.

(** Scenario B: a request addressed to another camera. *)
Example scenario_B :
  processMessage (to_camera "get camera functionality" "camera2") world0
  = (Ok tt, world0).
Proof. vm_compute. reflexivity. Qed.

(** Scenario C: new parameters. *)
Example scenario_C :
  let w := deliver (new_parameters 2) world0 in
  responses w
  = [ {| r_source := "camera1";
         r_data := {[ "old parameters" := VParameters (PRef 3 []) ]} |};
      {| r_source := "camera1";
         r_data := {[ "new parameters" := VParameters (PRef 1 []) ]} |} ]
  /\ log w = [ WorkerStart;
               Called cameraControl.GetParameters;
               Called (cameraControl.NewParameters (PRef 2 ["camera1"]));
               Called cameraControl.GetParameters;
               WorkerDone ]
  /\ content (heap w) (PRef 3 []) = Some (exposure 20)
  /\ content (heap w) (PRef 1 []) = Some (exposure 50).
Proof. vm_compute. repeat split; reflexivity. Qed.

(** After scenario C a write into the camera's live parameters shows through
    the "new parameters" response, which refers to the live object, and not
    through the "old parameters" response, which refers to the copy. *)
Example scenario_C_later_write :
  let w := deliver (new_parameters 2) world0 in
  let later :=
    snd (frame.mutations [frame.InPlace (exposure 99)]
           (camera_control (self w), heap w)) in
  content later (PRef 1 []) = Some (exposure 99)
  /\ content later (PRef 3 []) = Some (exposure 20).
Proof. vm_compute. split; reflexivity. Qed.

(** Scenario D: a film without a fixed length on a fresh controller. *)
Example scenario_D :
  let w := run [start_film false 0; film_timing "camera1"] world0 in
  film_length (self w) = None /\ log w = [].
Proof. vm_compute. split; reflexivity. Qed.

End Scenarios.

(** ** Reasoning about the handler *)

Lemma isType_other (m : HalMessage) (t t' : string) :
  isType m t = true -> isType m t' = String.eqb t t'.
Proof. unfold isType. intros Ht. apply String.eqb_eq in Ht. by rewrite Ht. Qed.

Lemma isType_true (m : HalMessage) (t : string) :
  isType m t = true <-> m_type m = t.
Proof. apply String.eqb_eq. Qed.

Lemma isType_false (m : HalMessage) (t : string) :
  isType m t = false <-> m_type m <> t.
Proof. apply String.eqb_neq. Qed.

(** Select the branch of [processMessage] for a message of known type. *)
Ltac dispatch Ht :=
  unfold processMessage;
  rewrite ?(isType_other _ _ _ Ht);
  cbn [String.eqb Ascii.eqb Bool.eqb].

(** Run the monad. *)
Ltac run_M :=
  cbv beta iota zeta delta
    [mbind M_bind mret M_ret gets modify raise call_driver
     camera_control_getParameters camera_control_getCameraFunctionality
     addResponse newMessage_emit runWorkerTask setFilmLength startCamera
     stopCamera toggleShutter updateParameters getData py_getTimeBase
     py_isFixedLength py_getFilmLength py_get Parameters_get Parameters_copy
     set_film_length set_driver set_heap set_responses set_emitted set_log
     self heap responses emitted log module_name film_length camera_control
     fst snd cameraControl.perform cameraControl.raises].

(** One case distinction the handler makes on its input or its state. *)
Ltac case_step :=
  match goal with
  | |- context [match m_data ?m !! ?k with _ => _ end] =>
      destruct (m_data m !! k) as [?|] eqn:?
  | |- context [match ?v with _ => _ end] =>
      is_var v; lazymatch type of v with PyVal => destruct v end
  | |- context [if py_eq_str ?v ?s then _ else _] =>
      destruct (py_eq_str v s) eqn:?
  | |- context [if String.eqb ?a ?b then _ else _] =>
      destruct (String.eqb a b) eqn:?
  | |- context [match ?v with _ => _ end] =>
      is_var v; lazymatch type of v with option Z => destruct v end
  | |- context [match content ?h ?r with _ => _ end] =>
      destruct (content h r) eqn:?
  | |- context [if isFixedLength ?fs then _ else _] =>
      destruct (isFixedLength fs) eqn:?
  | |- context [if cameraControl.fails ?c ?d ?h then _ else _] =>
      destruct (cameraControl.fails c d h) eqn:?
  end.

Ltac run_all := run_M; repeat (case_step; run_M).

Section Handler.

Context {D : Type} `{cameraControl.Driver D}.

Implicit Types (m : HalMessage) (w : World D).

(** A message of a type without a branch falls through the whole chain. *)
Lemma processMessage_fall_through m w :
  isType m "configure1" = false ->
  isType m "film timing" = false ->
  isType m "get camera functionality" = false ->
  isType m "new parameters" = false ->
  isType m "shutter clicked" = false ->
  isType m "start camera" = false ->
  isType m "start film" = false ->
  isType m "stop camera" = false ->
  isType m "stop film" = false ->
  processMessage m w = (Ok tt, w).
Proof.
  intros T1 T2 T3 T4 T5 T6 T7 T8 T9. unfold processMessage.
  rewrite T1, T2, T3, T4, T5, T6, T7, T8, T9. reflexivity.
Qed.

(** Only the "start film" and "stop film" branches assign [film_length]. *)
Lemma film_length_unchanged m w :
  isType m "start film" = false ->
  isType m "stop film" = false ->
  film_length (self (snd (processMessage m w))) = film_length (self w).
Proof.
  intros Hstart Hstop. destruct w as [[name fl d] h rs em lg].
  destruct (isType m "configure1") eqn:T1; [by dispatch T1; run_all|].
  destruct (isType m "film timing") eqn:T2; [by dispatch T2; run_all|].
  destruct (isType m "get camera functionality") eqn:T3; [by dispatch T3; run_all|].
  destruct (isType m "new parameters") eqn:T4; [by dispatch T4; run_all|].
  destruct (isType m "shutter clicked") eqn:T5; [by dispatch T5; run_all|].
  destruct (isType m "start camera") eqn:T6; [by dispatch T6; run_all|].
  destruct (isType m "stop camera") eqn:T7; [by dispatch T7; run_all|].
  by rewrite processMessage_fall_through.
Qed.

(** What "start film" does to the controller, whatever the payload. *)
Lemma start_film_film_length m w :
  isType m "start film" = true ->
  film_length (self (snd (processMessage m w)))
  = match declared_length m with
    | Some n => Some n
    | None => film_length (self w)
    end.
Proof.
  intros Ht. destruct w as [[name fl d] h rs em lg].
  unfold declared_length. rewrite Ht. dispatch Ht. by run_all.
Qed.

Lemma stop_film_film_length m w :
  isType m "stop film" = true ->
  film_length (self (snd (processMessage m w))) = None.
Proof.
  intros Ht. destruct w as [[name fl d] h rs em lg]. dispatch Ht. by run_all.
Qed.

Lemma declared_length_start_film m n :
  declared_length m = Some n -> isType m "start film" = true.
Proof. unfold declared_length. by destruct (isType m "start film"). Qed.

(** The transition function of the one-field state machine. *)
Lemma film_length_step m w :
  film_length (self (snd (processMessage m w)))
  = if isType m "stop film" then None
    else match declared_length m with
         | Some n => Some n
         | None => film_length (self w)
         end.
Proof.
  destruct (isType m "stop film") eqn:Hstop.
  - by apply stop_film_film_length.
  - destruct (isType m "start film") eqn:Hstart.
    + by apply start_film_film_length.
    + rewrite film_length_unchanged by done.
      unfold declared_length. by rewrite Hstart.
Qed.

Lemma run_snoc (ms : list HalMessage) m w :
  run (ms ++ [m]) w = deliver m (run ms w).
Proof. unfold run. by rewrite fold_left_app. Qed.

Lemma film_length_deliver m w :
  film_length (self (deliver m w))
  = if isType m "stop film" then None
    else match declared_length m with
         | Some n => Some n
         | None => film_length (self w)
         end.
Proof. unfold deliver. by rewrite film_length_step. Qed.

End Handler.

(** ** The film length over a sequence of messages *)

Section FilmLength.

Context {D : Type} `{cameraControl.Driver D}.

Implicit Types (m : HalMessage) (w : World D).

(** Where a message of [ms ++ [m]] can sit: it is the last one, or it is
    one of [ms] and [m] comes after it. *)
Lemma snoc_eq_middle {A} (ms pre post : list A) (m x : A) :
  ms ++ [m] = pre ++ x :: post ->
  (post = [] /\ x = m /\ pre = ms)
  \/ (exists post', post = post' ++ [m] /\ ms = pre ++ x :: post').
Proof.
  destruct post as [|y post' _] using rev_ind; intros Heq.
  - left. apply app_inj_tail in Heq as [Hms Hm]. by subst.
  - right. exists post'.
    change (pre ++ x :: post' ++ [y]) with (pre ++ (x :: post') ++ [y]) in Heq.
    rewrite app_assoc in Heq. apply app_inj_tail in Heq as [Hms Hm]. by subst.
Qed.

(** C1.  Over every sequence of messages delivered to a controller that
    starts with no pending length, and at every point of the sequence (after
    any number [k] of its messages): [film_length] is [None] unless the point
    lies between a "start film" message declaring a fixed length and the
    next "stop film" message; there it is the length declared by the latest
    such "start film". *)
Theorem film_length_none_except_during_fixed_film
    (name : string) (d : D) (h : Heap) (ms : list HalMessage) (k : nat) :
  match film_length (self (run (take k ms) (init name d h))) with
  | None =>
      forall pre m post,
        take k ms = pre ++ m :: post ->
        is_Some (declared_length m) ->
        Exists is_stop_film post
  | Some n =>
      exists pre m post,
        take k ms = pre ++ m :: post
        /\ declared_length m = Some n
        /\ Forall (fun m' => ~ is_stop_film m') post
        /\ Forall (fun m' => declared_length m' = None) post
  end.
Proof.
  generalize (take k ms) as l. clear ms k. intros ms.
  induction ms as [|m ms IH] using rev_ind.
  - simpl. intros pre m post Heq. by destruct pre.
  - rewrite run_snoc, film_length_deliver.
    destruct (isType m "stop film") eqn:Hstop.
    + intros pre x post Heq [n Hn].
      apply snoc_eq_middle in Heq as [(-> & -> & ->)|(post' & -> & ->)].
      * apply declared_length_start_film in Hn.
        rewrite (isType_other _ _ _ Hn) in Hstop. done.
      * apply Exists_app. right. by constructor.
    + destruct (declared_length m) as [n|] eqn:Hdecl.
      * exists ms, m, []. done.
      * destruct (film_length (self (run ms (init name d h)))) as [n|].
        -- destruct IH as (pre & x & post & -> & Hx & Hns & Hnd).
           exists pre, x, (post ++ [m]). rewrite <- app_assoc. simpl.
           split_and!; [done|done| |].
           ++ apply Forall_app. split; [done|]. constructor; [|done].
              unfold is_stop_film. by rewrite Hstop.
           ++ apply Forall_app. split; [done|]. by constructor.
        -- intros pre x post Heq [n Hn].
           apply snoc_eq_middle in Heq as [(-> & -> & ->)|(post' & -> & ->)].
           ++ congruence.
           ++ apply Exists_app. left. by eapply IH.
Qed.

End FilmLength.

(** ** The branches of [processMessage] *)

Section Branches.

Context {D : Type} `{cameraControl.Driver D}.

Implicit Types (m : HalMessage) (w : World D).

Lemma not_handled_isType m t :
  ~ In (m_type m) handled_types -> In t handled_types -> isType m t = false.
Proof. intros Hm Ht. apply isType_false. congruence. Qed.

(** C8.  A message whose type is none of the nine handled types changes
    nothing: [film_length] and the driver are as before, nothing is recorded
    in the call log, no response is appended and no message is emitted; the
    handler returns normally with the world it was given. *)
Theorem unhandled_type_is_noop m w :
  ~ In (m_type m) handled_types ->
  processMessage m w = (Ok tt, w).
Proof.
  intros Hm.
  apply processMessage_fall_through;
    apply not_handled_isType; try done; unfold handled_types; simpl; tauto.
Qed.

(** C10.  A message of any type other than "start film" and "stop film"
    leaves [film_length] as it was, in every state of the controller. *)
Theorem only_film_messages_change_film_length m w :
  m_type m <> "start film" ->
  m_type m <> "stop film" ->
  film_length (self (snd (processMessage m w))) = film_length (self w).
Proof.
  intros Hstart Hstop. apply film_length_unchanged; by apply isType_false.
Qed.

(** C9.  A "film timing" message never gets a response from the
    controller, whether or not the task pushing the film length is
    scheduled (and whatever the payload). *)
Theorem film_timing_appends_no_response m w :
  m_type m = "film timing" ->
  responses (snd (processMessage m w)) = responses w.
Proof.
  intros Ht%isType_true. destruct w as [[name fl d] h rs em lg].
  dispatch Ht. by run_all.
Qed.

(** A "start film" message whose settings do not declare a fixed length is
    handled without any effect. *)
Lemma start_film_not_fixed_noop m w fs :
  m_type m = "start film" ->
  m_data m !! "film settings" = Some (VFilmSettings fs) ->
  isFixedLength fs = false ->
  processMessage m w = (Ok tt, w).
Proof.
  intros Ht%isType_true Hdata Hfixed. destruct w as [[name fl d] h rs em lg].
  dispatch Ht. run_M. rewrite Hdata. run_M. rewrite Hfixed. reflexivity.
Qed.

(** C2, as the code has it.  After a "start film" message whose film
    settings do not declare a fixed length, [film_length] is what it was
    before the message: the branch assigns nothing.  So it is [None] whenever
    it was [None] before, as on a new controller and after every
    "stop film". *)
Theorem start_film_not_fixed_keeps_film_length m w fs :
  m_type m = "start film" ->
  m_data m !! "film settings" = Some (VFilmSettings fs) ->
  isFixedLength fs = false ->
  film_length (self (snd (processMessage m w))) = film_length (self w)
  /\ (film_length (self w) = None ->
      film_length (self (snd (processMessage m w))) = None).
Proof.
  intros Ht Hdata Hfixed.
  rewrite (start_film_not_fixed_noop m w fs) by done. done.
Qed.


(** The two outcomes of "film timing" for a well-formed payload. *)
Lemma film_timing_scheduled m w f n :
  m_type m = "film timing" ->
  m_data m !! "functionality" = Some (VFunctionality f) ->
  getTimeBase f = module_name (self w) ->
  film_length (self w) = Some n ->
  let pushed :=
    cameraControl.setFilmLength (Some n) (camera_control (self w)) (heap w) in
  let raised :=
    cameraControl.raises (cameraControl.SetFilmLength (Some n))
      (camera_control (self w)) (heap w) in
  processMessage m w
  = (if raised then Raise DeviceError else Ok tt,
     set_log (log w
              ++ worker_events (cameraControl.SetFilmLength (Some n)) raised)
       (set_driver (fst pushed) (snd pushed) w)).
Proof.
  intros Ht%isType_true Hdata Htb Hfl. destruct w as [[name fl d] h rs em lg].
  simpl in Htb, Hfl. subst fl.
  dispatch Ht. run_M. rewrite Hdata. run_M. rewrite Htb, String.eqb_refl.
  run_M. unfold worker_events.
  destruct (cameraControl.fails _ d h); run_M; by rewrite <- ?app_assoc.
Qed.

Lemma film_timing_not_scheduled m w f :
  m_type m = "film timing" ->
  m_data m !! "functionality" = Some (VFunctionality f) ->
  ~ (getTimeBase f = module_name (self w) /\ film_length (self w) <> None) ->
  processMessage m w = (Ok tt, w).
Proof.
  intros Ht%isType_true Hdata Hnot. destruct w as [[name fl d] h rs em lg].
  simpl in Hnot.
  dispatch Ht. run_M. rewrite Hdata. run_M.
  destruct (String.eqb (getTimeBase f) name) eqn:Htb; [|done].
  apply String.eqb_eq in Htb. destruct fl; [|done].
  exfalso. apply Hnot. done.
Qed.

(** C5, as the code has it.  For every "film timing" message: a worker task
    calling the driver's [setFilmLength] with the current [film_length] is
    scheduled if and only if the time base of the payload's functionality is
    this controller's name and [film_length] is not [None] (the task is done
    unless the call raises); otherwise nothing is scheduled and the driver
    is not called.  In particular, when [film_length] is [None] and a
    "start film" without a fixed length arrives, a following "film timing"
    naming this controller schedules nothing. *)
Theorem film_timing_schedules_iff m w f :
  m_type m = "film timing" ->
  m_data m !! "functionality" = Some (VFunctionality f) ->
  let w' := snd (processMessage m w) in
  (getTimeBase f = module_name (self w) /\ film_length (self w) <> None ->
   log w'
   = log w
     ++ worker_events (cameraControl.SetFilmLength (film_length (self w)))
          (cameraControl.raises
             (cameraControl.SetFilmLength (film_length (self w)))
             (camera_control (self w)) (heap w))
   /\ (camera_control (self w'), heap w')
      = cameraControl.setFilmLength (film_length (self w))
          (camera_control (self w)) (heap w))
  /\ (~ (getTimeBase f = module_name (self w) /\ film_length (self w) <> None) ->
      processMessage m w = (Ok tt, w))
  /\ (forall m0 fs,
        m_type m0 = "start film" ->
        m_data m0 !! "film settings" = Some (VFilmSettings fs) ->
        isFixedLength fs = false ->
        film_length (self w) = None ->
        processMessage m (snd (processMessage m0 w)) = (Ok tt, w)).
Proof.
  intros Ht Hdata. split_and!.
  - intros [Htb Hfl].
    destruct (film_length (self w)) as [n|] eqn:Hn; [|done].
    rewrite (film_timing_scheduled m w f n) by done. simpl.
    split; [done|]. by destruct (cameraControl.setFilmLength _ _ _).
  - by apply film_timing_not_scheduled.
  - intros m0 fs Ht0 Hdata0 Hfixed Hnone.
    rewrite (start_film_not_fixed_noop m0 w fs) by done. simpl.
    apply (film_timing_not_scheduled m w f); [done..|].
    intros [_ Hfl]. done.
Qed.


End Branches.

(** ** New parameters: the two snapshots *)

Section NewParameters.

Context {D : Type} `{cameraControl.Driver D}.

Implicit Types (m : HalMessage) (w : World D) (h : Heap).

Lemma alloc_fresh h : alloc h ∉ dom h.
Proof. unfold alloc. apply is_fresh. Qed.

Lemma content_dom h r t : content h r = Some t -> p_obj r ∈ dom h.
Proof.
  unfold content. intros Hc. apply elem_of_dom.
  destruct (h !! p_obj r); [by eexists|done].
Qed.

(** Creating an object does not change what existing references denote. *)
Lemma content_alloc h r t t' :
  content h r = Some t -> content (<[alloc h := t']> h) r = Some t.
Proof.
  intros Hc. pose proof (content_dom _ _ _ Hc) as Hdom.
  unfold content in *. rewrite lookup_insert_ne; [done|].
  intros Heq. apply (alloc_fresh h). by rewrite Heq.
Qed.


(** The "new parameters" branch, run to its end: the return of the handler,
    or the DeviceError of [newParameters]. *)
Lemma processMessage_new_parameters m w P sub t0 :
  m_type m = "new parameters" ->
  m_data m !! "parameters" = Some (VParameters P) ->
  content (heap w) (PRef (p_obj P) (p_path P ++ [module_name (self w)])) = Some sub ->
  content (heap w) (cameraControl.getParameters (camera_control (self w))) = Some t0 ->
  let me := module_name (self w) in
  let p := PRef (p_obj P) (p_path P ++ [me]) in
  let old := PRef (alloc (heap w)) [] in
  let before := <[alloc (heap w) := t0]> (heap w) in
  let applied := cameraControl.newParameters p (camera_control (self w)) before in
  let old_response :=
    {| r_source := me; r_data := {[ "old parameters" := VParameters old ]} |} in
  processMessage m w
  = if cameraControl.raises (cameraControl.NewParameters p)
         (camera_control (self w)) before
    then
      (Raise DeviceError,
       set_log (log w ++ [ WorkerStart;
                           Called cameraControl.GetParameters;
                           Called (cameraControl.NewParameters p) ])
         (set_responses (responses w ++ [old_response])
            (set_driver (fst applied) (snd applied) w)))
    else
      (Ok tt,
       set_log (log w ++ [ WorkerStart;
                           Called cameraControl.GetParameters;
                           Called (cameraControl.NewParameters p);
                           Called cameraControl.GetParameters;
                           WorkerDone ])
         (set_responses
            (responses w
             ++ [ old_response;
                  {| r_source := me;
                     r_data :=
                       {[ "new parameters" :=
                            VParameters
                              (cameraControl.getParameters (fst applied)) ]} |} ])
            (set_driver (fst applied) (snd applied) w))).
Proof.
  intros Ht%isType_true Hdata Hsub Hlive.
  destruct w as [[name fl d] h rs em lg]. simpl in *.
  dispatch Ht. run_M. rewrite Hlive. run_M. rewrite Hdata. run_M.
  rewrite (content_alloc _ _ _ t0 Hsub). run_M.
  destruct (cameraControl.fails _ d _); run_M; by rewrite <- !app_assoc.
Qed.


Section Independence.
Import frame.

Context `{!Frame D}.

Lemma perform_isolated l t c d h :
  isolated l t (d, h) ->
  l ∉ cameraControl.args c ->
  isolated l t (cameraControl.perform c d h).
Proof.
  intros [Hl Hown] Hargs. simpl in *.
  assert (l ∈ dom h) as Hdom by (apply elem_of_dom; by eexists).
  split.
  - rewrite perform_frame by done. done.
  - intros Hown'. apply perform_owned in Hown'. tauto.
Qed.

Lemma mutate_isolated l t mu dh :
  isolated l t dh -> ~ hands_over l mu -> isolated l t (mutate mu dh).
Proof.
  destruct dh as [d h], mu as [c|t']; simpl; intros Hiso Hho.
  - by apply perform_isolated.
  - destruct Hiso as [Hl Hown]. simpl in *. split; simpl; [|done].
    rewrite lookup_insert_ne; [done|].
    intros Heq. apply Hown. rewrite <- Heq. apply getParameters_owned.
Qed.

Lemma mutations_isolated l t mus dh :
  isolated l t dh ->
  Forall (fun mu => ~ hands_over l mu) mus ->
  isolated l t (mutations mus dh).
Proof.
  intros Hiso Hmus. revert dh Hiso.
  induction Hmus as [|mu mus Hmu _ IH]; intros dh Hiso; simpl; [done|].
  apply IH. by apply mutate_isolated.
Qed.

(** C7.  The "old parameters" response of a "new parameters" message refers
    to an object created by the copy, before the apply runs: an object that
    did not exist before the message, that the driver holds no reference to,
    and that is not the object the driver returns as its parameters after
    the apply.  Its content is that of the live parameters before the apply,
    and stays so through the apply and through every later change of the
    live parameters: driver calls (unless a call is handed that very object)
    and writes into the live object. *)
Theorem old_parameters_is_independent_copy m w P sub t0 (mus : list Mutation) :
  m_type m = "new parameters" ->
  m_data m !! "parameters" = Some (VParameters P) ->
  content (heap w) (PRef (p_obj P) (p_path P ++ [module_name (self w)])) = Some sub ->
  content (heap w) (cameraControl.getParameters (camera_control (self w))) = Some t0 ->
  owned (camera_control (self w)) ⊆ dom (heap w) ->
  Forall (fun mu => ~ hands_over (alloc (heap w)) mu) mus ->
  let old := PRef (alloc (heap w)) [] in
  let w' := snd (processMessage m w) in
  (responses w' !! length (responses w))
  = Some {| r_source := module_name (self w);
            r_data := {[ "old parameters" := VParameters old ]} |}
  /\ (p_obj old ∉ dom (heap w))
  /\ p_obj old <> p_obj (cameraControl.getParameters (camera_control (self w')))
  /\ content (heap w') old = Some t0
  /\ content (snd (mutations mus (camera_control (self w'), heap w'))) old = Some t0.
Proof.
  intros Ht Hdata Hsub Hlive Hown Hmus. cbv zeta.
  set (l := alloc (heap w)).
  set (p := PRef (p_obj P) (p_path P ++ [module_name (self w)])).
  assert (isolated l t0
            (cameraControl.perform (cameraControl.NewParameters p)
               (camera_control (self w)) (<[l := t0]> (heap w)))) as Hiso.
  { apply perform_isolated.
    - split; simpl; [by rewrite lookup_insert_eq|].
      intros Hin. apply (alloc_fresh (heap w)). by apply Hown.
    - simpl. intros Hin%elem_of_singleton.
      apply (alloc_fresh (heap w)). fold l. rewrite Hin.
      exact (content_dom _ _ _ Hsub). }
  simpl in Hiso.
  rewrite (processMessage_new_parameters m w P sub t0) by done. cbv zeta.
  fold l p.
  (* the same facts hold whether [newParameters] returned or raised *)
  destruct (cameraControl.raises _ _ _); simpl;
    (split_and!;
     [ rewrite lookup_app_r by done; by rewrite Nat.sub_diag
     | apply alloc_fresh
     | intros Heq; destruct Hiso as [_ Hno]; apply Hno;
       pose proof (getParameters_owned
                     (fst (cameraControl.newParameters p (camera_control (self w))
                             (<[l := t0]> (heap w))))) as Ho;
       by rewrite <- Heq in Ho
     | destruct Hiso as [Hl _]; unfold content; simpl; by rewrite Hl
     | pose proof (mutations_isolated l t0 mus _ Hiso Hmus) as [Hl _];
       unfold content; simpl;
       destruct (cameraControl.newParameters _ _ _) as [d2 h2]; simpl in *;
       by rewrite Hl ]).
Qed.

End Independence.

End NewParameters.

(** ** The emulated camera respects the frame *)

Section Emulated.
Import emulated frame.

#[export] Instance emulated_frame : Frame EmulatedCamera.
Proof.
  refine {| owned d := {[ ec_parameters d ]} |}.
  - intros d. simpl. by apply elem_of_singleton.
  - intros c d h l _ Hown _. apply not_elem_of_singleton in Hown.
    destruct c; simpl; try done.
    unfold ec_newParameters. destruct (content h p); simpl; [|done].
    by rewrite lookup_insert_ne.
  - intros c d h l Hown. left.
    destruct c; simpl in *; try done.
    unfold ec_newParameters in Hown. by destruct (content h p).
Defined.

End Emulated.

(** ** The theorems at concrete inputs *)

Section Witnesses.
Import emulated frame.

Lemma start_film_not_fixed_keeps_film_length_witness :
  m_type (start_film false 0) = "start film"
  /\ m_data (start_film false 0) !! "film settings"
     = Some (VFilmSettings {| isFixedLength := false; getFilmLength := 0 |})
  /\ (film_length (self (snd (processMessage (start_film false 0) world0)))
      = film_length (self world0)
      /\ (film_length (self world0) = None ->
          film_length (self (snd (processMessage (start_film false 0) world0)))
          = None)).
Proof.
  split; [reflexivity|]. split; [vm_compute; reflexivity|].
  apply (start_film_not_fixed_keeps_film_length (start_film false 0) world0
           {| isFixedLength := false; getFilmLength := 0 |});
    [reflexivity | vm_compute; reflexivity | reflexivity].
Defined.

(** Two films in a row, the second without a fixed length: the length of the
    first is still pending. *)
Lemma start_film_not_fixed_after_fixed_keeps_500 :
  isFixedLength {| isFixedLength := false; getFilmLength := 0 |} = false
  /\ film_length
       (self (snd (processMessage (start_film false 0)
                     (run [start_film true 500] world0))))
     = Some 500%Z
  /\ film_length
       (self (snd (processMessage (start_film false 0)
                     (run [start_film true 500] world0))))
     <> None.
Proof. vm_compute. split; [reflexivity|]. split; [reflexivity|discriminate]. Qed.

(** After a fixed-length "start film" and a second "start film" without a
    fixed length, "film timing" naming this controller does schedule the
    task. *)
Lemma film_timing_after_not_fixed_start_schedules :
  log (run [start_film true 500; start_film false 0; film_timing "camera1"] world0)
  = [ WorkerStart; Called (cameraControl.SetFilmLength (Some 500%Z)); WorkerDone ]
  /\ log (run [start_film true 500; start_film false 0; film_timing "camera1"] world0)
     <> log (run [start_film true 500; start_film false 0] world0).
Proof. vm_compute. split; [reflexivity|discriminate]. Qed.





Lemma film_timing_schedules_iff_witness :
  m_type (film_timing "camera1") = "film timing"
  /\ m_data (film_timing "camera1") !! "functionality"
     = Some (VFunctionality {| camera_name := "camera1"; getTimeBase := "camera1" |})
  /\ log (snd (processMessage (film_timing "camera1")
                 (run [start_film true 500] world0)))
     = log (run [start_film true 500] world0)
       ++ [ WorkerStart;
            Called (cameraControl.SetFilmLength
                      (film_length (self (run [start_film true 500] world0))));
            WorkerDone ]
  /\ processMessage (film_timing "camera2") (run [start_film true 500] world0)
     = (Ok tt, run [start_film true 500] world0).
Proof.
  split; [reflexivity|]. split; [vm_compute; reflexivity|]. split.
  - destruct (film_timing_schedules_iff (film_timing "camera1")
                (run [start_film true 500] world0)
                {| camera_name := "camera1"; getTimeBase := "camera1" |})
      as (Hyes & _ & _);
      [reflexivity | vm_compute; reflexivity | ].
    destruct Hyes as [Hlog _];
      [split; [vm_compute; reflexivity | vm_compute; discriminate]|].
    etransitivity; [exact Hlog | reflexivity].
  - destruct (film_timing_schedules_iff (film_timing "camera2")
                (run [start_film true 500] world0)
                {| camera_name := "camera1"; getTimeBase := "camera2" |})
      as (_ & Hno & _);
      [reflexivity | vm_compute; reflexivity | ].
    apply Hno. vm_compute. intros [Heq _]. discriminate.
Defined.


Lemma old_parameters_is_independent_copy_witness :
  m_type (new_parameters 2) = "new parameters"
  /\ owned (camera_control (self world0)) ⊆ dom (heap world0)
  /\ content
       (snd (mutations
               [ InPlace (exposure 99);
                 ByDriver cameraControl.ToggleShutter;
                 ByDriver (cameraControl.NewParameters (PRef 2 ["camera1"])) ]
               (camera_control (self (snd (processMessage (new_parameters 2) world0))),
                heap (snd (processMessage (new_parameters 2) world0)))))
       (PRef (alloc (heap world0)) [])
     = Some (exposure 20).
Proof.
  split; [reflexivity|].
  assert (owned (camera_control (self world0)) ⊆ dom (heap world0)) as Hown.
  { intros l Hl. change (l ∈ ({[ 1%positive ]} : gset positive)) in Hl.
    apply elem_of_singleton in Hl. subst l.
    apply elem_of_dom. vm_compute. eexists. reflexivity. }
  split; [exact Hown|].
  destruct (old_parameters_is_independent_copy (new_parameters 2) world0 (PRef 2 [])
              (exposure 50) (exposure 20)
              [ InPlace (exposure 99);
                ByDriver cameraControl.ToggleShutter;
                ByDriver (cameraControl.NewParameters (PRef 2 ["camera1"])) ])
    as (_ & _ & _ & _ & Hlater);
    [reflexivity | vm_compute; reflexivity | vm_compute; reflexivity
    | vm_compute; reflexivity | exact Hown | | exact Hlater].
  apply Forall_cons. split; [simpl; tauto|].
  apply Forall_cons. split.
  { simpl. intros Hin. exact (not_elem_of_empty (C := gset positive) _ Hin). }
  apply Forall_cons. split; [|apply Forall_nil_2].
  simpl. intros Hin. apply elem_of_singleton in Hin.
  vm_compute in Hin. discriminate.
Defined.

Lemma unhandled_type_is_noop_witness :
  ~ In (m_type (message "tcp message" ∅)) handled_types
  /\ processMessage (message "tcp message" ∅) world0 = (Ok tt, world0).
Proof.
  assert (~ In (m_type (message "tcp message" ∅)) handled_types) as Hnot.
  { simpl. intros Hin. repeat (destruct Hin as [Hin|Hin]; [discriminate|]). exact Hin. }
  split; [exact Hnot|].
  apply (unhandled_type_is_noop (message "tcp message" ∅) world0 Hnot).
Defined.

Lemma film_timing_appends_no_response_witness :
  m_type (film_timing "camera1") = "film timing"
  /\ responses (snd (processMessage (film_timing "camera1")
                       (run [start_film true 500] world0)))
     = responses (run [start_film true 500] world0).
Proof.
  split; [reflexivity|].
  apply (film_timing_appends_no_response (film_timing "camera1")
           (run [start_film true 500] world0)).
  reflexivity.
Defined.

Lemma only_film_messages_change_film_length_witness :
  m_type (new_parameters 2) <> "start film"
  /\ m_type (new_parameters 2) <> "stop film"
  /\ film_length (self (snd (processMessage (new_parameters 2)
                              (run [start_film true 500] world0))))
     = film_length (self (run [start_film true 500] world0)).
Proof.
  split; [discriminate|]. split; [discriminate|].
  apply (only_film_messages_change_film_length (new_parameters 2)
           (run [start_film true 500] world0));
    discriminate.
Defined.

End Witnesses.

(** ** The remaining branches, and what a handler does with a bad payload *)

Section MoreBranches.

Context {D : Type} `{cameraControl.Driver D}.

Implicit Types (m : HalMessage) (w : World D).


Lemma command_call_isType m c :
  command_call (m_type m) = Some c ->
  (isType m "shutter clicked" = true /\ c = cameraControl.ToggleShutter)
  \/ (isType m "start camera" = true /\ c = cameraControl.StartCamera)
  \/ (isType m "stop camera" = true /\ c = cameraControl.StopCamera).
Proof.
  unfold command_call, isType. intros Hc.
  destruct (String.eqb (m_type m) "shutter clicked"); [left; by simplify_eq|].
  destruct (String.eqb (m_type m) "start camera"); [right; left; by simplify_eq|].
  destruct (String.eqb (m_type m) "stop camera"); [right; right; by simplify_eq|].
  done.
Qed.

(** X2.  "shutter clicked", "start camera" and "stop camera" naming this
    controller: one worker task is run, and in it the driver's
    [toggleShutter], [startCamera] or [stopCamera] is called once.  Nothing
    else happens: no response, no message, [film_length] as before.  The
    handler returns, and the task is done, unless the call raises a
    DeviceError, which then leaves the handler. *)
Theorem command_for_this_camera_runs_in_task m w c :
  command_call (m_type m) = Some c ->
  m_data m !! "camera" = Some (VStr (module_name (self w))) ->
  let r := cameraControl.perform c (camera_control (self w)) (heap w) in
  let raised := cameraControl.raises c (camera_control (self w)) (heap w) in
  processMessage m w
  = (if raised then Raise DeviceError else Ok tt,
     set_log (log w ++ worker_events c raised)
       (set_driver (fst r) (snd r) w)).
Proof.
  intros Hc Hdata. destruct w as [[name fl d] h rs em lg]. simpl in Hdata.
  apply command_call_isType in Hc as [[Ht ->]|[[Ht ->]|[Ht ->]]];
    dispatch Ht; run_M; rewrite Hdata; run_M;
    unfold py_eq_str, worker_events; rewrite String.eqb_refl; run_M;
    (destruct (cameraControl.fails _ d h); run_M; by rewrite <- ?app_assoc).
Qed.

(** X3.  "start film" with a fixed length: the declared length is stored as it
    is, whatever integer it is, and nothing else happens; the driver is not
    called. *)
Theorem start_film_fixed_saves_length m w fs :
  m_type m = "start film" ->
  m_data m !! "film settings" = Some (VFilmSettings fs) ->
  isFixedLength fs = true ->
  processMessage m w = (Ok tt, set_film_length (Some (getFilmLength fs)) w).
Proof.
  intros Ht%isType_true Hdata Hfixed. destruct w as [[name fl d] h rs em lg].
  dispatch Ht. run_M. rewrite Hdata. run_M. rewrite Hfixed. reflexivity.
Qed.

Lemma first_key_cases m k :
  first_key (m_type m) = Some k ->
  (isType m "film timing" = true /\ k = "functionality")
  \/ (isType m "get camera functionality" = true /\ k = "camera")
  \/ (isType m "shutter clicked" = true /\ k = "camera")
  \/ (isType m "start camera" = true /\ k = "camera")
  \/ (isType m "start film" = true /\ k = "film settings")
  \/ (isType m "stop camera" = true /\ k = "camera").
Proof.
  unfold first_key, isType. intros Hk.
  destruct (String.eqb (m_type m) "film timing"); [simplify_eq; tauto|].
  destruct (String.eqb (m_type m) "get camera functionality"); [simplify_eq; tauto|].
  destruct (String.eqb (m_type m) "shutter clicked"); [simplify_eq; tauto|].
  destruct (String.eqb (m_type m) "start camera"); [simplify_eq; tauto|].
  destruct (String.eqb (m_type m) "start film"); [simplify_eq; tauto|].
  destruct (String.eqb (m_type m) "stop camera"); [simplify_eq; tauto|].
  done.
Qed.

(** X4.  A message whose payload lacks the entry its branch reads first makes
    the handler raise [KeyError] for that entry, before anything was done:
    the world is as it was. *)
Theorem missing_payload_entry_raises_KeyError m w k :
  first_key (m_type m) = Some k ->
  m_data m !! k = None ->
  processMessage m w = (Raise (KeyError k), w).
Proof.
  intros Hk Hdata. destruct w as [[name fl d] h rs em lg].
  apply first_key_cases in Hk
    as [[Ht ->]|[[Ht ->]|[[Ht ->]|[[Ht ->]|[[Ht ->]|[Ht ->]]]]]];
    dispatch Ht; run_M; by rewrite Hdata.
Qed.

(** X5.  For the four camera-addressed types, a "camera" entry that is anything
    but the string naming this controller (another name, or a value that is
    not a string) makes the message one for somebody else: it is ignored. *)
Theorem camera_entry_other_than_my_name_is_ignored m w v :
  In (m_type m) addressed_types ->
  m_data m !! "camera" = Some v ->
  v <> VStr (module_name (self w)) ->
  processMessage m w = (Ok tt, w).
Proof.
  intros Hin Hdata Hv. destruct w as [[name fl d] h rs em lg]. simpl in Hv.
  assert (py_eq_str v name = false) as Hne.
  { destruct v; simpl; try done.
    apply String.eqb_neq. congruence. }
  unfold addressed_types in Hin. simpl in Hin.
  destruct Hin as [Ht|[Ht|[Ht|[Ht|[]]]]];
    symmetry in Ht; apply isType_true in Ht;
    dispatch Ht; run_M; rewrite Hdata; run_M; by rewrite Hne.
Qed.


End MoreBranches.

(** ** What every branch keeps *)

(** Close a goal [exists new, rs' = rs ++ new /\ ...] once the handler has
    been run. *)
Ltac solve_appended :=
  first
    [ by (exists []; rewrite app_nil_r; split_and!;
          [reflexivity | simpl; lia | constructor])
    | by (eexists [_]; split_and!;
          [reflexivity | simpl; lia | repeat constructor])
    | by (eexists [_; _]; split_and!;
          [by rewrite <- app_assoc | simpl; lia | repeat constructor]) ].

(** Close a goal about the outcome of a handler once it has been run: it
    returned, or a driver call raised. *)
Ltac solve_outcome :=
  split;
  [ first [by left | by right]
  | let Hnever := fresh "Hnever" in
    intros Hnever;
    repeat match goal with
           | Hf : cameraControl.fails _ _ _ = true |- _ =>
               rewrite Hnever in Hf; discriminate Hf
           end;
    reflexivity ].

Section Invariants.

Context {D : Type} `{cameraControl.Driver D}.

Implicit Types (m : HalMessage) (w : World D).

(** X7.  Responses are only ever appended: whatever the message and whatever
    the outcome, the responses the message had are still there, in order,
    followed by at most two new ones, each signed with this controller's
    name. *)
Theorem responses_are_only_appended m w :
  exists new,
    responses (snd (processMessage m w)) = responses w ++ new
    /\ (length new <= 2)%nat
    /\ Forall (fun r => r_source r = module_name (self w)) new.
Proof.
  destruct w as [[name fl d] h rs em lg].
  destruct (isType m "configure1") eqn:T1;
    [dispatch T1; run_all; solve_appended|].
  destruct (isType m "film timing") eqn:T2;
    [dispatch T2; run_all; solve_appended|].
  destruct (isType m "get camera functionality") eqn:T3;
    [dispatch T3; run_all; solve_appended|].
  destruct (isType m "new parameters") eqn:T4;
    [dispatch T4; run_all; solve_appended|].
  destruct (isType m "shutter clicked") eqn:T5;
    [dispatch T5; run_all; solve_appended|].
  destruct (isType m "start camera") eqn:T6;
    [dispatch T6; run_all; solve_appended|].
  destruct (isType m "start film") eqn:T7;
    [dispatch T7; run_all; solve_appended|].
  destruct (isType m "stop camera") eqn:T8;
    [dispatch T8; run_all; solve_appended|].
  destruct (isType m "stop film") eqn:T9;
    [dispatch T9; run_all; solve_appended|].
  rewrite processMessage_fall_through by done. simpl. solve_appended.
Qed.

(** The name of the controller is never assigned. *)
Lemma module_name_processMessage m w :
  module_name (self (snd (processMessage m w))) = module_name (self w).
Proof.
  destruct w as [[name fl d] h rs em lg].
  destruct (isType m "configure1") eqn:T1; [by dispatch T1; run_all|].
  destruct (isType m "film timing") eqn:T2; [by dispatch T2; run_all|].
  destruct (isType m "get camera functionality") eqn:T3; [by dispatch T3; run_all|].
  destruct (isType m "new parameters") eqn:T4; [by dispatch T4; run_all|].
  destruct (isType m "shutter clicked") eqn:T5; [by dispatch T5; run_all|].
  destruct (isType m "start camera") eqn:T6; [by dispatch T6; run_all|].
  destruct (isType m "start film") eqn:T7; [by dispatch T7; run_all|].
  destruct (isType m "stop camera") eqn:T8; [by dispatch T8; run_all|].
  destruct (isType m "stop film") eqn:T9; [by dispatch T9; run_all|].
  by rewrite processMessage_fall_through.
Qed.

Lemma module_name_deliver m w :
  module_name (self (deliver m w)) = module_name (self w).
Proof. unfold deliver. by rewrite module_name_processMessage. Qed.

Lemma module_name_run (ms : list HalMessage) w :
  module_name (self (run ms w)) = module_name (self w).
Proof.
  revert w. induction ms as [|m ms IH]; intros w; [done|].
  simpl. change (fold_left _ ms (deliver m w)) with (run ms (deliver m w)).
  by rewrite IH, module_name_deliver.
Qed.



(** X9.  A payload that has what its branch uses never makes the handler
    raise an exception of its own: the handler returns, or ends with the
    DeviceError of a driver call.  With a driver none of whose calls raises,
    the handler returns. *)
Theorem well_formed_payload_raises_only_DeviceError m w :
  well_formed m w = true ->
  (fst (processMessage m w) = Ok tt
   \/ fst (processMessage m w) = Raise DeviceError)
  /\ ((forall c d h, cameraControl.fails c d h = false) ->
      fst (processMessage m w) = Ok tt).
Proof.
  intros Hwf. destruct w as [[name fl d] h rs em lg].
  unfold well_formed in Hwf. simpl in Hwf.
  destruct (isType m "configure1") eqn:T1;
    [dispatch T1; run_all; solve_outcome|].
  destruct (isType m "film timing") eqn:T2.
  { destruct (m_data m !! "functionality") as [[]|] eqn:Hd; try done.
    dispatch T2. run_M. rewrite Hd. run_all; solve_outcome. }
  destruct (isType m "get camera functionality") eqn:T3.
  { destruct (m_data m !! "camera") eqn:Hd; [|done].
    dispatch T3. run_M. rewrite Hd. run_all; solve_outcome. }
  rewrite orb_false_l in Hwf.
  destruct (isType m "new parameters") eqn:T4.
  { rewrite ?(isType_other _ _ _ T4) in Hwf.
    cbn [String.eqb Ascii.eqb Bool.eqb orb] in Hwf.
    destruct (m_data m !! "parameters") as [[| | | |P|]|] eqn:Hd; try done.
    destruct (content h _) as [sub|] eqn:Hsub; [|done].
    destruct (content h (cameraControl.getParameters d)) as [t0|] eqn:Hlive; [|done].
    apply isType_true in T4.
    rewrite (processMessage_new_parameters m _ P sub t0) by done. cbv zeta.
    unfold cameraControl.raises.
    destruct (cameraControl.fails _ _ _) eqn:Hfails; simpl; solve_outcome. }
  destruct (isType m "shutter clicked") eqn:T5.
  { destruct (m_data m !! "camera") eqn:Hd; [|done].
    dispatch T5. run_M. rewrite Hd. run_all; solve_outcome. }
  destruct (isType m "start camera") eqn:T6.
  { destruct (m_data m !! "camera") eqn:Hd; [|done].
    dispatch T6. run_M. rewrite Hd. run_all; solve_outcome. }
  destruct (isType m "start film") eqn:T7.
  { rewrite ?(isType_other _ _ _ T7) in Hwf.
    cbn [String.eqb Ascii.eqb Bool.eqb orb] in Hwf.
    destruct (m_data m !! "film settings") as [[]|] eqn:Hd; try done.
    dispatch T7. run_M. rewrite Hd. run_all; solve_outcome. }
  destruct (isType m "stop camera") eqn:T8.
  { destruct (m_data m !! "camera") eqn:Hd; [|done].
    dispatch T8. run_M. rewrite Hd. run_all; solve_outcome. }
  destruct (isType m "stop film") eqn:T9;
    [dispatch T9; run_all; solve_outcome|].
  rewrite processMessage_fall_through by done. simpl. solve_outcome.
Qed.

End Invariants.

(** ** Films: from "start film" to the driver *)

Section Films.

Context {D : Type} `{cameraControl.Driver D}.

Implicit Types (m : HalMessage) (w : World D).

Lemma run_cons m (ms : list HalMessage) w :
  run (m :: ms) w = run ms (deliver m w).
Proof. reflexivity. Qed.

(** The pending length after a sequence depends on the pending length
    before it and on nothing else in the world. *)
Lemma film_length_run_ext (ms : list HalMessage) w1 w2 :
  film_length (self w1) = film_length (self w2) ->
  film_length (self (run ms w1)) = film_length (self (run ms w2)).
Proof.
  revert w1 w2. induction ms as [|m ms IH]; intros w1 w2 Heq; [done|].
  rewrite !run_cons. apply IH. rewrite !film_length_deliver. by rewrite Heq.
Qed.

Lemma film_length_deliver_other m w :
  is_film_message m = false ->
  film_length (self (deliver m w)) = film_length (self w).
Proof.
  unfold is_film_message. intros [Hstart Hstop]%orb_false_elim.
  rewrite film_length_deliver, Hstop. unfold declared_length. by rewrite Hstart.
Qed.

Lemma film_length_run_other (ms : list HalMessage) w :
  Forall (fun x => is_film_message x = false) ms ->
  film_length (self (run ms w)) = film_length (self w).
Proof.
  intros Hms. revert w. induction Hms as [|x ms Hx _ IH]; intros w; [done|].
  rewrite run_cons, IH. by apply film_length_deliver_other.
Qed.

(** X10.  The pending film length is a function of the film messages alone:
    dropping every message that is neither "start film" nor "stop film" from
    a sequence does not change the [film_length] it ends with. *)
Theorem film_length_ignores_other_messages (ms : list HalMessage) w :
  film_length (self (run ms w))
  = film_length (self (run (List.filter is_film_message ms) w)).
Proof.
  revert w. induction ms as [|m ms IH]; intros w; [done|].
  rewrite run_cons. simpl. destruct (is_film_message m) eqn:Hfilm.
  - rewrite run_cons. apply IH.
  - rewrite IH. apply film_length_run_ext.
    by apply film_length_deliver_other.
Qed.

(** X11.  The length a fixed-length "start film" declares is the one pushed to
    the driver by the next "film timing" that names this controller, whatever
    was pending before and whatever other messages (no "start film", no
    "stop film") came in between.  (The task is done unless the call
    raises.) *)
Theorem declared_length_reaches_driver m0 fs (ms : list HalMessage) m f w :
  m_type m0 = "start film" ->
  m_data m0 !! "film settings" = Some (VFilmSettings fs) ->
  isFixedLength fs = true ->
  Forall (fun x => is_film_message x = false) ms ->
  m_type m = "film timing" ->
  m_data m !! "functionality" = Some (VFunctionality f) ->
  getTimeBase f = module_name (self w) ->
  let w1 := run (m0 :: ms) w in
  log (snd (processMessage m w1))
  = log w1
    ++ worker_events (cameraControl.SetFilmLength (Some (getFilmLength fs)))
         (cameraControl.raises
            (cameraControl.SetFilmLength (Some (getFilmLength fs)))
            (camera_control (self w1)) (heap w1)).
Proof.
  intros Ht0%isType_true Hdata0 Hfixed Hms Ht Hdata Htb. cbv zeta.
  assert (film_length (self (run (m0 :: ms) w)) = Some (getFilmLength fs)) as Hfl.
  { rewrite run_cons, film_length_run_other by done.
    rewrite film_length_deliver, (isType_other _ _ _ Ht0). simpl.
    unfold declared_length. by rewrite Ht0, Hdata0, Hfixed. }
  rewrite (film_timing_scheduled m (run (m0 :: ms) w) f (getFilmLength fs));
    [done..| |done].
  by rewrite module_name_run.
Qed.

End Films.

(** ** The registered shape of "get camera functionality" *)

Section Validation.
Import validator.

Context {D : Type} `{cameraControl.Driver D}.

Implicit Types (m : HalMessage) (w : World D).


End Validation.

(** ** The old-parameters snapshot and later messages *)

(** Run the monad, keeping driver calls folded. *)
Ltac run_K :=
  cbv beta iota zeta delta
    [mbind M_bind mret M_ret gets modify raise call_driver
     camera_control_getParameters camera_control_getCameraFunctionality
     addResponse newMessage_emit runWorkerTask setFilmLength startCamera
     stopCamera toggleShutter updateParameters getData py_getTimeBase
     py_isFixedLength py_getFilmLength py_get Parameters_get Parameters_copy
     set_film_length set_driver set_heap set_responses set_emitted set_log
     self heap responses emitted log module_name film_length camera_control
     cameraControl.raises];
  cbn [fst snd].

Section SnapshotLifetime.
Import frame.

Context {D : Type} `{cameraControl.Driver D} `{!Frame D}.

Implicit Types (m : HalMessage) (w : World D) (h : Heap).

Lemma perform_isolated_pair l t c (d : D) h :
  isolated l t (d, h) ->
  l ∉ cameraControl.args c ->
  isolated l t (fst (cameraControl.perform c d h), snd (cameraControl.perform c d h)).
Proof. intros Hiso Hargs. rewrite <- surjective_pairing. by apply perform_isolated. Qed.

Lemma perform_getter_isolated l t c (d : D) h :
  cameraControl.args c = ∅ ->
  isolated l t (d, h) ->
  isolated l t (fst (cameraControl.perform c d h), snd (cameraControl.perform c d h)).
Proof.
  intros Hargs Hiso. apply perform_isolated_pair; [done|].
  rewrite Hargs. apply not_elem_of_empty.
Qed.

(** Creating an object leaves an isolated one alone. *)
Lemma isolated_alloc l t t' (d : D) h :
  isolated l t (d, h) -> isolated l t (d, <[alloc h := t']> h).
Proof.
  intros [Hl Hown]. split; simpl in *; [|done].
  rewrite lookup_insert_ne; [done|].
  intros Heq. apply (is_fresh (dom h)). fold (alloc h). rewrite Heq.
  apply elem_of_dom. by eexists.
Qed.

(** No branch reaches an object the driver has no reference to, unless the
    message itself carries a reference to it. *)
Lemma processMessage_isolated l t m w :
  isolated l t (camera_control (self w), heap w) ->
  ~ refers_to l m ->
  isolated l t (camera_control (self (snd (processMessage m w))),
                heap (snd (processMessage m w))).
Proof.
  intros Hiso Hm. destruct w as [[name fl d] h rs em lg]. simpl in Hiso.
  destruct (isType m "configure1") eqn:T1.
  { dispatch T1. run_K. by apply perform_getter_isolated. }
  destruct (isType m "film timing") eqn:T2.
  { dispatch T2. run_K. repeat (case_step; run_K); try done;
      by apply perform_getter_isolated. }
  destruct (isType m "get camera functionality") eqn:T3.
  { dispatch T3. run_K. repeat (case_step; run_K); try done;
      by apply perform_getter_isolated. }
  destruct (isType m "new parameters") eqn:T4.
  { dispatch T4. run_K.
    pose proof (perform_getter_isolated l t cameraControl.GetParameters d h
                  eq_refl Hiso) as Hiso1.
    destruct (cameraControl.perform cameraControl.GetParameters d h)
      as [d1 h1]. cbn [fst snd] in *.
    destruct (content h1 (cameraControl.getParameters d1)) as [t0|]; run_K;
      [|done].
    apply (isolated_alloc l t t0) in Hiso1.
    destruct (m_data m !! "parameters") as [P|] eqn:Hd; run_K; [|done].
    destruct P as [| | | |P|]; run_K; try done.
    destruct (content _ _); run_K; [|done].
    assert (isolated l t
              (fst (cameraControl.perform
                      (cameraControl.NewParameters
                         (PRef (p_obj P) (p_path P ++ [name])))
                      d1 (<[alloc h1 := t0]> h1)),
               snd (cameraControl.perform
                      (cameraControl.NewParameters
                         (PRef (p_obj P) (p_path P ++ [name])))
                      d1 (<[alloc h1 := t0]> h1)))) as Hiso2.
    { apply perform_isolated_pair; [done|].
      simpl. intros Hin%elem_of_singleton. apply Hm. by exists P. }
    destruct (cameraControl.fails _ _ _); run_K; [done|].
    by apply perform_getter_isolated. }
  destruct (isType m "shutter clicked") eqn:T5.
  { dispatch T5. run_K. repeat (case_step; run_K); try done;
      by apply perform_getter_isolated. }
  destruct (isType m "start camera") eqn:T6.
  { dispatch T6. run_K. repeat (case_step; run_K); try done;
      by apply perform_getter_isolated. }
  destruct (isType m "start film") eqn:T7.
  { dispatch T7. run_K. by repeat (case_step; run_K). }
  destruct (isType m "stop camera") eqn:T8.
  { dispatch T8. run_K. repeat (case_step; run_K); try done;
      by apply perform_getter_isolated. }
  destruct (isType m "stop film") eqn:T9.
  { dispatch T9. run_K.
    destruct (cameraControl.fails _ _ _); run_K;
      [by apply perform_getter_isolated|].
    apply perform_getter_isolated; [done|].
    by apply perform_getter_isolated. }
  by rewrite processMessage_fall_through.
Qed.

Lemma run_isolated l t (ms : list HalMessage) w :
  isolated l t (camera_control (self w), heap w) ->
  Forall (fun m => ~ refers_to l m) ms ->
  isolated l t (camera_control (self (run ms w)), heap (run ms w)).
Proof.
  intros Hiso Hms. revert w Hiso.
  induction Hms as [|m ms Hm _ IH]; intros w Hiso; [done|].
  rewrite run_cons. apply IH. unfold deliver.
  by apply (processMessage_isolated l t m (set_responses [] w)).
Qed.

(** After "new parameters" the snapshot is an object of its own. *)
Lemma new_parameters_isolates_snapshot m w P sub t0 :
  m_type m = "new parameters" ->
  m_data m !! "parameters" = Some (VParameters P) ->
  content (heap w) (PRef (p_obj P) (p_path P ++ [module_name (self w)])) = Some sub ->
  content (heap w) (cameraControl.getParameters (camera_control (self w))) = Some t0 ->
  owned (camera_control (self w)) ⊆ dom (heap w) ->
  isolated (alloc (heap w)) t0
    (camera_control (self (snd (processMessage m w))),
     heap (snd (processMessage m w))).
Proof.
  intros Ht Hdata Hsub Hlive Hown.
  rewrite (processMessage_new_parameters m w P sub t0) by done. cbv zeta.
  destruct (cameraControl.raises _ _ _); simpl;
    apply (perform_isolated_pair (alloc (heap w)) t0
             (cameraControl.NewParameters
                (PRef (p_obj P) (p_path P ++ [module_name (self w)])))).
  all: try (simpl; intros Hin%elem_of_singleton;
            apply (alloc_fresh (heap w)); rewrite Hin;
            exact (content_dom _ _ _ Hsub)).
  all: split; simpl; [by rewrite lookup_insert_eq|];
    intros Hin; apply (alloc_fresh (heap w)); by apply Hown.
Qed.

(** X13.  The snapshot given as "old parameters" outlives the message: however
    many further messages the controller handles, of whatever type, valid or
    not, the snapshot still holds the parameters as they were before the
    apply, as long as no later message hands the snapshot itself back as its
    "parameters". *)
Theorem old_parameters_survive_later_messages m w P sub t0 (ms : list HalMessage) :
  m_type m = "new parameters" ->
  m_data m !! "parameters" = Some (VParameters P) ->
  content (heap w) (PRef (p_obj P) (p_path P ++ [module_name (self w)])) = Some sub ->
  content (heap w) (cameraControl.getParameters (camera_control (self w))) = Some t0 ->
  owned (camera_control (self w)) ⊆ dom (heap w) ->
  Forall (fun m' => ~ refers_to (alloc (heap w)) m') ms ->
  content (heap (run ms (snd (processMessage m w)))) (PRef (alloc (heap w)) [])
  = Some t0.
Proof.
  intros Ht Hdata Hsub Hlive Hown Hms.
  pose proof (new_parameters_isolates_snapshot m w P sub t0 Ht Hdata Hsub Hlive Hown)
    as Hiso.
  apply (run_isolated _ _ ms) in Hiso; [|done].
  destruct Hiso as [Hl _]. unfold content. simpl in *. by rewrite Hl.
Qed.

End SnapshotLifetime.

(** ** What the driver sees *)

(** Close a goal about the events a handler added to the log. *)
Ltac solve_events :=
  first
    [ exists []; split_and!;
      [ by rewrite app_nil_r | simpl; lia | reflexivity | simpl; tauto ]
    | eexists; split_and!;
      [ rewrite <- ?app_assoc; reflexivity
      | simpl; lia
      | reflexivity
      | simpl; intuition discriminate ] ].

Section DriverDiscipline.

Context {D : Type} `{cameraControl.Driver D}.

Implicit Types (m : HalMessage) (w : World D).

(** X14.  Whatever the message and the outcome of handling it: the log only
    grows; at most one worker task is started; outside a worker task the
    controller calls nothing but the two getters and [stopFilm]; and
    [setFilmLength] is never called with [None]. *)
Theorem one_task_per_message_and_only_stopFilm_direct m w :
  exists events,
    log (snd (processMessage m w)) = log w ++ events
    /\ (tasks_started events <= 1)%nat
    /\ forallb getter_or_stopFilm (direct_calls false events) = true
    /\ ~ In (Called (cameraControl.SetFilmLength None)) events.
Proof.
  destruct w as [[name fl d] h rs em lg].
  destruct (isType m "configure1") eqn:T1;
    [dispatch T1; run_all; solve_events|].
  destruct (isType m "film timing") eqn:T2;
    [dispatch T2; run_all; solve_events|].
  destruct (isType m "get camera functionality") eqn:T3;
    [dispatch T3; run_all; solve_events|].
  destruct (isType m "new parameters") eqn:T4;
    [dispatch T4; run_all; solve_events|].
  destruct (isType m "shutter clicked") eqn:T5;
    [dispatch T5; run_all; solve_events|].
  destruct (isType m "start camera") eqn:T6;
    [dispatch T6; run_all; solve_events|].
  destruct (isType m "start film") eqn:T7;
    [dispatch T7; run_all; solve_events|].
  destruct (isType m "stop camera") eqn:T8;
    [dispatch T8; run_all; solve_events|].
  destruct (isType m "stop film") eqn:T9;
    [dispatch T9; run_all; solve_events|].
  rewrite processMessage_fall_through by done. simpl. solve_events.
Qed.

(** X15.  Once a film is stopped its length is gone: after "stop film", and any
    further messages that are not film messages, a "film timing" naming this
    controller (or any other) pushes nothing to the driver. *)
Theorem no_length_pushed_after_stop_film m0 (ms : list HalMessage) m f w :
  m_type m0 = "stop film" ->
  Forall (fun x => is_film_message x = false) ms ->
  m_type m = "film timing" ->
  m_data m !! "functionality" = Some (VFunctionality f) ->
  processMessage m (run (m0 :: ms) w) = (Ok tt, run (m0 :: ms) w).
Proof.
  intros Ht0%isType_true Hms Ht Hdata.
  apply (film_timing_not_scheduled m _ f); [done..|].
  intros [_ Hfl]. apply Hfl.
  rewrite run_cons, film_length_run_other by done.
  by rewrite film_length_deliver, Ht0.
Qed.

End DriverDiscipline.

(** ** These theorems at concrete inputs *)

Section MoreWitnesses.
Import emulated frame validator.


Lemma command_for_this_camera_runs_in_task_witness :
  command_call (m_type (to_camera "start camera" "camera1"))
  = Some cameraControl.StartCamera
  /\ m_data (to_camera "start camera" "camera1") !! "camera"
     = Some (VStr (module_name (self world0)))
  /\ processMessage (to_camera "start camera" "camera1") world0
     = (Ok tt,
        set_log [ WorkerStart; Called cameraControl.StartCamera; WorkerDone ]
          (set_driver (with_running true camera0) heap0 world0)).
Proof.
  split; [reflexivity|]. split; [vm_compute; reflexivity|].
  rewrite (command_for_this_camera_runs_in_task
             (to_camera "start camera" "camera1") world0 cameraControl.StartCamera);
    [reflexivity | reflexivity | vm_compute; reflexivity].
Defined.

Lemma start_film_fixed_saves_length_witness :
  m_type (start_film true (-3)) = "start film"
  /\ m_data (start_film true (-3)) !! "film settings"
     = Some (VFilmSettings {| isFixedLength := true; getFilmLength := -3 |})
  /\ processMessage (start_film true (-3)) world0
     = (Ok tt, set_film_length (Some (-3)%Z) world0).
Proof.
  split; [reflexivity|]. split; [vm_compute; reflexivity|].
  apply (start_film_fixed_saves_length (start_film true (-3)) world0
           {| isFixedLength := true; getFilmLength := -3 |});
    [reflexivity | vm_compute; reflexivity | reflexivity].
Defined.

Lemma missing_payload_entry_raises_KeyError_witness :
  first_key (m_type (message "start camera" ∅)) = Some "camera"
  /\ m_data (message "start camera" ∅) !! "camera" = None
  /\ processMessage (message "start camera" ∅) world0
     = (Raise (KeyError "camera"), world0).
Proof.
  split; [reflexivity|]. split; [vm_compute; reflexivity|].
  apply (missing_payload_entry_raises_KeyError (message "start camera" ∅) world0);
    [reflexivity | vm_compute; reflexivity].
Defined.

Lemma camera_entry_other_than_my_name_is_ignored_witness :
  In (m_type (message "stop camera" {[ "camera" := VInt 1 ]})) addressed_types
  /\ m_data (message "stop camera" {[ "camera" := VInt 1 ]}) !! "camera"
     = Some (VInt 1)
  /\ VInt 1 <> VStr (module_name (self world0))
  /\ processMessage (message "stop camera" {[ "camera" := VInt 1 ]}) world0
     = (Ok tt, world0).
Proof.
  split; [simpl; tauto|]. split; [vm_compute; reflexivity|].
  split; [discriminate|].
  apply (camera_entry_other_than_my_name_is_ignored
           (message "stop camera" {[ "camera" := VInt 1 ]}) world0 (VInt 1));
    [simpl; tauto | vm_compute; reflexivity | discriminate].
Defined.


Lemma well_formed_payload_raises_only_DeviceError_witness :
  well_formed (new_parameters 2) world0 = true
  /\ (forall c d h, cameraControl.fails (D := EmulatedCamera) c d h = false)
  /\ fst (processMessage (new_parameters 2) world0) = Ok tt
  /\ well_formed (new_parameters 2) faulty_world0 = true
  /\ (fst (processMessage (new_parameters 2) faulty_world0) = Ok tt
      \/ fst (processMessage (new_parameters 2) faulty_world0) = Raise DeviceError).
Proof.
  split; [vm_compute; reflexivity|].
  split; [intros c d h; reflexivity|].
  split.
  - apply (well_formed_payload_raises_only_DeviceError (new_parameters 2) world0);
      [vm_compute; reflexivity | intros c d h; reflexivity].
  - split; [vm_compute; reflexivity|].
    apply (well_formed_payload_raises_only_DeviceError
             (new_parameters 2) faulty_world0).
    vm_compute. reflexivity.
Defined.

Lemma declared_length_reaches_driver_witness :
  Forall (fun x => is_film_message x = false)
    [ to_camera "start camera" "camera1"; message "configure1" ∅ ]
  /\ log (snd (processMessage (film_timing "camera1")
                 (run [ start_film true 500;
                        to_camera "start camera" "camera1";
                        message "configure1" ∅ ] world0)))
     = log (run [ start_film true 500;
                  to_camera "start camera" "camera1";
                  message "configure1" ∅ ] world0)
       ++ [ WorkerStart;
            Called (cameraControl.SetFilmLength (Some 500%Z));
            WorkerDone ].
Proof.
  assert (Forall (fun x => is_film_message x = false)
            [ to_camera "start camera" "camera1"; message "configure1" ∅ ]) as Hms.
  { repeat constructor. }
  split; [exact Hms|].
  etransitivity.
  - apply (declared_length_reaches_driver (start_film true 500)
             {| isFixedLength := true; getFilmLength := 500 |}
             [ to_camera "start camera" "camera1"; message "configure1" ∅ ]
             (film_timing "camera1")
             {| camera_name := "camera1"; getTimeBase := "camera1" |} world0);
      [ reflexivity | vm_compute; reflexivity | reflexivity | exact Hms
      | reflexivity | vm_compute; reflexivity | reflexivity ].
  - reflexivity.
Defined.


Lemma old_parameters_survive_later_messages_witness :
  m_type (new_parameters 2) = "new parameters"
  /\ owned (camera_control (self world0)) ⊆ dom (heap world0)
  /\ content
       (heap (run [ new_parameters 2; stop_film; message "configure1" ∅;
                    to_camera "shutter clicked" "camera1" ]
                (snd (processMessage (new_parameters 2) world0))))
       (PRef (alloc (heap world0)) [])
     = Some (exposure 20).
Proof.
  split; [reflexivity|].
  assert (owned (camera_control (self world0)) ⊆ dom (heap world0)) as Hown.
  { intros l Hl. change (l ∈ ({[ 1%positive ]} : gset positive)) in Hl.
    apply elem_of_singleton in Hl. subst l.
    apply elem_of_dom. vm_compute. eexists. reflexivity. }
  split; [exact Hown|].
  apply (old_parameters_survive_later_messages (new_parameters 2) world0
           (PRef 2 []) (exposure 50) (exposure 20));
    [ reflexivity | vm_compute; reflexivity | vm_compute; reflexivity
    | vm_compute; reflexivity | exact Hown | ].
  repeat (apply Forall_cons; split; [|]); [| | | |apply Forall_nil_2];
    intros (P & Hd & Heq); vm_compute in Hd; try discriminate Hd.
  injection Hd as <-. vm_compute in Heq. discriminate Heq.
Defined.

Lemma no_length_pushed_after_stop_film_witness :
  m_type stop_film = "stop film"
  /\ Forall (fun x => is_film_message x = false) [ to_camera "start camera" "camera1" ]
  /\ processMessage (film_timing "camera1")
       (run [ stop_film; to_camera "start camera" "camera1" ]
          (run [start_film true 500] world0))
     = (Ok tt,
        run [ stop_film; to_camera "start camera" "camera1" ]
          (run [start_film true 500] world0)).
Proof.
  split; [reflexivity|].
  assert (Forall (fun x => is_film_message x = false)
            [ to_camera "start camera" "camera1" ]) as Hms.
  { repeat constructor. }
  split; [exact Hms|].
  apply (no_length_pushed_after_stop_film stop_film
           [ to_camera "start camera" "camera1" ] (film_timing "camera1")
           {| camera_name := "camera1"; getTimeBase := "camera1" |});
    [ reflexivity | exact Hms | reflexivity | vm_compute; reflexivity ].
Defined.

End MoreWitnesses.
